(** * Aadhaar Enrolment Intelligence System (AEIS): backend core

    A shallow embedding of the backend's schema validator
    ([data_loader.py]), preprocessor and filter layer
    ([preprocessing.py]), analysis engine ([analysis.py]) and anomaly
    engine ([anomaly_model.py]), with the properties the design document
    states about them.

    Conventions of the embedding.
    - A pandas table is a list of rows, in index order; a column is the
      list of one field of the rows.
    - Integer columns hold mathematical integers ([Z]); a python
      exception is a [Raise] in the [result] monad.
    - A binary64 value is idealised as an extended real ([float64]):
      a finite real, an infinity or NaN.  Rounding and signed zeros are
      not modelled; division by zero and NaN propagation are.
    - The date functions of pandas (parsing, calendar fields,
      formatting) are the fields of the class [DateLib]; the
      development holds for every instance, and [gregorian] is the
      instance used in the examples. *)

From Stdlib Require Import ZArith Reals Lra Lia String List Ascii.
From stdpp Require Import base decidable option list gmap strings sets pretty.

Local Open Scope Z_scope.

(** ** Python exceptions and the error monad *)

Inductive exn :=
  | ValueError
  | TypeError
  | KeyError
  | IndexError
  | FileNotFoundError.

Inductive result (A : Type) :=
  | Ok (a : A)
  | Raise (e : exn).
Arguments Ok {A} a.
Arguments Raise {A} e.

#[global] Instance result_ret : MRet result := λ A a, Ok a.
#[global] Instance result_bind : MBind result := λ A B f m,
  match m with
  | Ok a => f a
  | Raise e => Raise e
  end.

(** ** config.py *)

Definition REQUIRED_COLUMNS : list string :=
  ["date"; "state"; "district"; "pincode";
   "age_0_5"; "age_5_17"; "age_18_greater"].

(** [DATA_DIR] is the [data] directory next to the backend; [base] is
    the directory that holds both. *)
Definition DATA_DIR (base : string) : string := base +:+ "/data".
Definition DEFAULT_CSV_PATH (base : string) : string :=
  DATA_DIR base +:+ "/enrolment_dataset_birbhum.csv".

Definition ROLLING_WINDOW : Z := 7.

(** ** data_loader.py *)

(** What [pd.read_csv] hands over: the header and the text cells. *)
Record CsvFrame := mkCsvFrame {
  columns : list string;
  cells : list (list string)
}.

(** [validate_columns(df)]: the set difference of the required columns
    and [df.columns] is truthy exactly when it is not empty. *)
Definition validate_columns (df : CsvFrame) : result bool :=
  let missing_cols : gset string :=
    list_to_set REQUIRED_COLUMNS ∖ list_to_set (columns df) in
  if decide (missing_cols = ∅) then Ok true else Raise ValueError.

(** [load_data(file_path)].  The file system is the function [fs]:
    [fs p = None] when [os.path.exists(p)] is false, and otherwise the
    frame [pd.read_csv(p)] reads. *)
Definition load_data (base : string) (fs : string → option CsvFrame)
    (file_path : option string) : result CsvFrame :=
  let file_path := default (DEFAULT_CSV_PATH base) file_path in
  match fs file_path with
  | None => Raise FileNotFoundError
  | Some df => _ ← validate_columns df; Ok df
  end.

(** [validate_uploaded_file(file_path)]: every exception of [load_data]
    is caught and turned into a failure tuple without data. *)
Definition validate_uploaded_file (base : string)
    (fs : string → option CsvFrame) (file_path : string) :
    bool * option CsvFrame :=
  match load_data base fs (Some file_path) with
  | Ok df => (true, Some df)
  | Raise _ => (false, None)
  end.

(** ** Binary64 values, idealised *)

Inductive float64 :=
  | Fin (x : R)
  | PInf
  | NInf
  | NaN.

#[global] Instance Rlt_rel_dec : RelDecision Rlt := Rlt_dec.
#[global] Instance Req_rel_dec : RelDecision (@eq R) := Req_dec_T.

Definition float_of_int (z : Z) : float64 := Fin (IZR z).

(** The sign of a non-zero finite value, as an infinity. *)
Definition inf_of_sign (x : R) : float64 :=
  if decide (0 < x)%R then PInf else NInf.

Definition fopp (a : float64) : float64 :=
  match a with
  | Fin x => Fin (- x)
  | PInf => NInf
  | NInf => PInf
  | NaN => NaN
  end.

Definition fadd (a b : float64) : float64 :=
  match a, b with
  | NaN, _ | _, NaN => NaN
  | Fin x, Fin y => Fin (x + y)
  | PInf, NInf | NInf, PInf => NaN
  | PInf, _ | _, PInf => PInf
  | NInf, _ | _, NInf => NInf
  end.

Definition fsub (a b : float64) : float64 := fadd a (fopp b).

Definition fmul (a b : float64) : float64 :=
  match a, b with
  | NaN, _ | _, NaN => NaN
  | Fin x, Fin y => Fin (x * y)
  | Fin x, PInf | PInf, Fin x =>
      if decide (x = 0)%R then NaN else inf_of_sign x
  | Fin x, NInf | NInf, Fin x =>
      if decide (x = 0)%R then NaN else fopp (inf_of_sign x)
  | PInf, PInf | NInf, NInf => PInf
  | PInf, NInf | NInf, PInf => NInf
  end.

(** Division as numpy does it: [0/0] is NaN and [x/0] is an infinity of
    the sign of [x]; nothing raises. *)
Definition fdiv (a b : float64) : float64 :=
  match a, b with
  | NaN, _ | _, NaN => NaN
  | Fin x, Fin y =>
      if decide (y = 0)%R
      then (if decide (x = 0)%R then NaN else inf_of_sign x)
      else Fin (x / y)
  | Fin _, PInf | Fin _, NInf => Fin 0
  | PInf, Fin y => if decide (y < 0)%R then NInf else PInf
  | NInf, Fin y => if decide (y < 0)%R then PInf else NInf
  | _, _ => NaN
  end.

Definition fabs (a : float64) : float64 :=
  match a with
  | Fin x => Fin (Rabs x)
  | PInf | NInf => PInf
  | NaN => NaN
  end.

Definition fsqrt (a : float64) : float64 :=
  match a with
  | Fin x => if decide (x < 0)%R then NaN else Fin (sqrt x)
  | PInf => PInf
  | NInf | NaN => NaN
  end.

(** [a > b]; every comparison with NaN is false. *)
Definition fgt (a b : float64) : bool :=
  match a, b with
  | Fin x, Fin y => bool_decide (y < x)%R
  | PInf, Fin _ | PInf, NInf | Fin _, NInf => true
  | _, _ => false
  end.

Definition flt (a b : float64) : bool := fgt b a.

Definition isna (a : float64) : bool :=
  match a with
  | NaN => true
  | _ => false
  end.

(** [Series.fillna(v)] on one value. *)
Definition fillna (v a : float64) : float64 := if isna a then v else a.

Definition fsum (l : list float64) : float64 := foldr fadd (Fin 0) l.

Definition ANOMALY_THRESHOLD : float64 := Fin (25 / 10).

(** ** Sorting: [sort_values] *)

(** Modelled from the spec: the order [sort_values] leaves rows of equal
    key in.  pandas is not part of the repository; the design document
    fixes "ties broken by original input order (stable sort)", and the
    insertion below keeps that order, ascending or descending. *)
Section Sorting.
Context {A : Type} (key : A → Z) (ascending : bool).

Definition key_le (a b : A) : bool :=
  if ascending then key a <=? key b else key b <=? key a.

Fixpoint sort_insert (a : A) (l : list A) : list A :=
  match l with
  | [] => [a]
  | b :: l' => if key_le a b then a :: l else b :: sort_insert a l'
  end.

Definition sort_values (l : list A) : list A := foldr sort_insert [] l.

Inductive key_sorted : list A → Prop :=
  | key_sorted_nil : key_sorted []
  | key_sorted_one a : key_sorted [a]
  | key_sorted_cons a b l :
      key_le a b = true → key_sorted (b :: l) → key_sorted (a :: b :: l).
End Sorting.

(** ** Series reductions *)

(** [Series.sum()]: zero on the empty series. *)
Definition series_sum (s : list Z) : Z := foldr Z.add 0 s.

(** [Series.mean()]: sum over count, NaN on the empty series. *)
Definition series_mean (s : list Z) : float64 :=
  fdiv (float_of_int (series_sum s)) (float_of_int (Z.of_nat (length s))).

Definition fsquare (a : float64) : float64 := fmul a a.

(** [Series.var()] with [ddof = 1]: NaN unless there are two values. *)
Definition series_var (s : list Z) : float64 :=
  let count := Z.of_nat (length s) in
  if count <=? 1 then NaN
  else
    let avg := series_mean s in
    fdiv (fsum (map (λ x, fsquare (fsub avg (float_of_int x))) s))
         (float_of_int (count - 1)).

(** [Series.std()]: the sample standard deviation. *)
Definition series_std (s : list Z) : float64 := fsqrt (series_var s).

(** [Series.min()] and [Series.max()]: NaN ([None]) on the empty series. *)
Definition series_min (s : list Z) : option Z :=
  match s with
  | [] => None
  | x :: s' => Some (foldr Z.min x s')
  end.

Definition series_max (s : list Z) : option Z :=
  match s with
  | [] => None
  | x :: s' => Some (foldr Z.max x s')
  end.

(** [Series.median()]: the middle of the sorted values, or the mean of
    the two middle ones. *)
Definition series_median (s : list Z) : float64 :=
  let sorted := sort_values (λ x : Z, x) true s in
  let n := length s in
  match n with
  | O => NaN
  | _ =>
      if Nat.even n
      then fdiv (fadd (float_of_int (nth (n / 2 - 1)%nat sorted 0))
                      (float_of_int (nth (n / 2)%nat sorted 0))) (Fin 2)
      else float_of_int (nth (n / 2)%nat sorted 0)
  end.

(** [int(x)] of a numpy scalar: NaN cannot be converted. *)
Definition py_int (x : option Z) : result Z :=
  match x with
  | Some z => Ok z
  | None => Raise ValueError
  end.

(** [Series.nunique()]. *)
Definition nunique (s : list Z) : Z :=
  Z.of_nat (size (list_to_set s : gset Z)).

(** ** Dates and the library functions on them *)

(** A [datetime64[ns]] value: nanoseconds since 1970-01-01. *)
Abbreviation Timestamp := Z (only parsing).

Definition NS_PER_DAY : Z := 86400000000000.

(** The functions of pandas and python the backend calls on single
    values.  [strptime_dmy s] is one cell of
    [pd.to_datetime(col, format='%d-%m-%Y', errors='coerce')], with
    [None] for NaT; [to_datetime s] is the general [pd.to_datetime(s)],
    which raises on text it cannot read and may answer NaT ([None]);
    [int_of_str s] is [int(s)]. *)
Class Library := {
  strptime_dmy : string → option Timestamp;
  to_datetime : string → result (option Timestamp);
  int_of_str : string → result Z;
  dt_year : Timestamp → Z;
  dt_month : Timestamp → Z;
  dt_month_name : Timestamp → string;
  dt_day : Timestamp → Z;
  dt_day_name : Timestamp → string;
  dt_isoweek : Timestamp → Z;
  strftime_ymd : Timestamp → string
}.

(** ** The data model *)

(** A cell of the [date] column before parsing: text, an already parsed
    timestamp, or a missing value. *)
Inductive DateCell :=
  | DText (s : string)
  | DStamp (t : Timestamp)
  | DNaT.

(** The columns [add_derived_columns] writes. *)
Record Derived := mkDerived {
  total_enrolments : Z;
  year : Z;
  month : Z;
  month_name : string;
  day : Z;
  day_of_week : string;
  week_of_year : Z
}.

(** One enrolment record.  [D] is the type of the [date] column and [X]
    that of the derived columns: [option Derived] while they may be
    absent, [Derived] once the preprocessor wrote them. *)
Record Enrolment (D X : Type) := mkEnrolment {
  date : D;
  state : string;
  district : string;
  pincode : Z;
  age_0_5 : Z;
  age_5_17 : Z;
  age_18_greater : Z;
  derived : X
}.
Arguments mkEnrolment {D X}.
Arguments date {D X}.
Arguments state {D X}.
Arguments district {D X}.
Arguments pincode {D X}.
Arguments age_0_5 {D X}.
Arguments age_5_17 {D X}.
Arguments age_18_greater {D X}.
Arguments derived {D X}.

Abbreviation RawRow := (Enrolment DateCell (option Derived)) (only parsing).
Abbreviation Row := (Enrolment Timestamp Derived) (only parsing).

Definition set_date {D D' X} (r : Enrolment D X) (d : D') : Enrolment D' X :=
  mkEnrolment d (state r) (district r) (pincode r)
    (age_0_5 r) (age_5_17 r) (age_18_greater r) (derived r).

Definition set_derived {D X X'} (r : Enrolment D X) (x : X') : Enrolment D X' :=
  mkEnrolment (date r) (state r) (district r) (pincode r)
    (age_0_5 r) (age_5_17 r) (age_18_greater r) x.

(** The column [total_enrolments] of a preprocessed table. *)
Definition total (r : Row) : Z := total_enrolments (derived r).



(** ** preprocessing.py: the preprocessor *)

Section Preprocessing.
Context `{Library}.

(** One cell of [pd.to_datetime(df['date'], format='%d-%m-%Y',
    errors='coerce')]: timestamps pass, text is parsed, anything
    unreadable becomes NaT. *)
Definition to_datetime_coerce (c : DateCell) : option Timestamp :=
  match c with
  | DText s => strptime_dmy s
  | DStamp t => Some t
  | DNaT => None
  end.

(** [df.dropna(subset=['date'])]. *)
Definition dropna_date {X} (df : list (Enrolment (option Timestamp) X)) :
    list (Enrolment Timestamp X) :=
  omap (λ r, t ← date r; Some (set_date r t)) df.

Definition parse_dates {X} (df : list (Enrolment DateCell X)) :
    list (Enrolment Timestamp X) :=
  let df := map (λ r, set_date r (to_datetime_coerce (date r))) df in
  dropna_date df.

(** The derived columns of one row; columns of these names that the
    frame already has are overwritten. *)
Definition derive {X} (r : Enrolment Timestamp X) : Derived :=
  {| total_enrolments := age_0_5 r + age_5_17 r + age_18_greater r;
     year := dt_year (date r);
     month := dt_month (date r);
     month_name := dt_month_name (date r);
     day := dt_day (date r);
     day_of_week := dt_day_name (date r);
     week_of_year := dt_isoweek (date r) |}.

Definition add_derived_columns {X} (df : list (Enrolment Timestamp X)) :
    list Row :=
  map (λ r, set_derived r (derive r)) df.

(** [preprocess_data]: [reset_index(drop=True)] renumbers the rows,
    which a list does by itself. *)
Definition preprocess_data {X} (df : list (Enrolment DateCell X)) : list Row :=
  let df := parse_dates df in
  let df := add_derived_columns df in
  sort_values date true df.
End Preprocessing.

(** ** Grouping: [groupby] *)

(** [df.groupby(key)]: the groups in ascending key order, each with its
    rows in table order.  [cmp] is the order of the keys. *)
Section GroupBy.
Context {A K : Type} (cmp : K → K → comparison) (key : A → K).

Fixpoint group_insert (r : A) (gs : list (K * list A)) : list (K * list A) :=
  match gs with
  | [] => [(key r, [r])]
  | (k, g) :: gs' =>
      match cmp (key r) k with
      | Lt => (key r, [r]) :: gs
      | Eq => (k, g ++ [r]) :: gs'
      | Gt => (k, g) :: group_insert r gs'
      end
  end.

Definition groupby (df : list A) : list (K * list A) :=
  fold_left (λ gs r, group_insert r gs) df [].

(** [.agg(f)] over the groups. *)
Definition agg {B} (f : list A → B) (gs : list (K * list A)) : list (K * B) :=
  map (λ kg, (kg.1, f kg.2)) gs.
End GroupBy.

(** The sum of one column. *)
Definition col_sum {A} (col : A → Z) (df : list A) : Z :=
  series_sum (map col df).

(** [df.groupby('date')[column].sum()]: the per-day series. *)
Definition daily_sum (column : Row → Z) (df : list Row) : list (Z * Z) :=
  agg (col_sum column) (groupby Z.compare date df).

(** ** Objects and references *)

(** Tables are python objects: a function receives a reference, and
    [df.copy()] and [df[mask]] build new objects.  The store maps
    references to tables. *)
Abbreviation loc := nat (only parsing).
Abbreviation store := (gmap nat (list Row)) (only parsing).

Definition Py (A : Type) : Type := store → result A * store.

#[global] Instance Py_ret : MRet Py := λ A a h, (Ok a, h).
#[global] Instance Py_bind : MBind Py := λ A B f m h,
  match m h with
  | (Ok a, h') => f a h'
  | (Raise e, h') => (Raise e, h')
  end.

Definition lift {A} (m : result A) : Py A := λ h, (m, h).

(** Reading through a reference; a reference python holds is live, the
    other case is there to make the function total. *)
Definition deref (l : loc) : Py (list Row) := λ h,
  match h !! l with
  | Some df => (Ok df, h)
  | None => (Raise KeyError, h)
  end.

Definition alloc (df : list Row) : Py loc := λ h,
  let l := fresh (dom h) in (Ok l, <[l := df]> h).

(** [df.copy()]. *)
Definition copy (df : loc) : Py loc := t ← deref df; alloc t.

(** [df[mask]] for a boolean mask computed row by row. *)
Definition getitem_mask (df : loc) (mask : Row → bool) : Py loc :=
  t ← deref df; alloc (List.filter mask t).

(** ** preprocessing.py: the filter layer *)

(** A date bound as the request layer passes it. *)
Inductive DateArg :=
  | ArgNone
  | ArgStr (s : string)
  | ArgStamp (t : Timestamp).

(** Python values that may stand for a pincode. *)
Inductive PyVal :=
  | PyInt (z : Z)
  | PyStr (s : string).

Inductive PinArg :=
  | PinScalar (v : PyVal)
  | PinList (l : list PyVal).

Section Filters.
Context `{Library}.

(** [if start_date:] - [None] and the empty text are false. *)
Definition truthy (a : DateArg) : bool :=
  match a with
  | ArgNone => false
  | ArgStr s => negb (String.eqb s "")
  | ArgStamp _ => true
  end.

(** [if isinstance(d, str): d = pd.to_datetime(d)]; [None] is NaT. *)
Definition coerce_date (a : DateArg) : result (option Timestamp) :=
  match a with
  | ArgNone => Ok None
  | ArgStr s => to_datetime s
  | ArgStamp t => Ok (Some t)
  end.

(** [df['date'] >= start]; a comparison with NaT is false. *)
Definition date_ge (start : option Timestamp) (r : Row) : bool :=
  match start with
  | Some s => s <=? date r
  | None => false
  end.

Definition date_le (end_ : option Timestamp) (r : Row) : bool :=
  match end_ with
  | Some e => date r <=? e
  | None => false
  end.

Definition filter_by_date_range (df : loc) (start_date end_date : DateArg) :
    Py loc :=
  df ← copy df;
  df ← (if truthy start_date
        then start_date ← lift (coerce_date start_date);
             getitem_mask df (date_ge start_date)
        else mret df);
  df ← (if truthy end_date
        then end_date ← lift (coerce_date end_date);
             getitem_mask df (date_le end_date)
        else mret df);
  mret df.

(** [int(p)]. *)
Definition int_of (p : PyVal) : result Z :=
  match p with
  | PyInt z => Ok z
  | PyStr s => int_of_str s
  end.

(** [[int(p) for p in pincodes]], left to right. *)
Fixpoint ints_of (ps : list PyVal) : result (list Z) :=
  match ps with
  | [] => Ok []
  | p :: ps' => z ← int_of p; zs ← ints_of ps'; Ok (z :: zs)
  end.

Definition isin (pincodes : list Z) (r : Row) : bool :=
  bool_decide (pincode r ∈ pincodes).

Definition filter_by_pincode (df : loc) (pincodes : PinArg) : Py loc :=
  let pincodes :=
    match pincodes with
    | PinScalar v => [v]
    | PinList l => l
    end in
  pincodes ← lift (ints_of pincodes);
  getitem_mask df (isin pincodes).

Definition valid_groups : list string :=
  ["age_0_5"; "age_5_17"; "age_18_greater"].

(** [filter_by_age_group]: the list comprehension rebinds the local
    name [age_groups] and nothing reads it afterwards. *)
Definition filter_by_age_group (df : loc) (age_groups : option (list string)) :
    Py loc :=
  df ← copy df;
  match age_groups with
  | None | Some [] => mret df
  | Some age_groups =>
      let age_groups :=
        List.filter (λ ag, bool_decide (ag ∈ valid_groups)) age_groups in
      mret df
  end.
End Filters.

(** ** analysis.py: the analysis engine *)

Record DailyStatistics := mkDailyStatistics {
  daily_mean : float64;
  daily_median : float64;
  daily_std : float64;
  daily_min : Z;
  daily_max : Z
}.

Record AgeGroupBreakdown := mkAgeGroupBreakdown {
  sum_age_0_5 : Z;
  sum_age_5_17 : Z;
  sum_age_18_greater : Z
}.

(** [days] is [None] where pandas answers NaN. *)
Record DateRange := mkDateRange {
  range_start : string;
  range_end : string;
  range_days : option Z
}.

Record Summary := mkSummary {
  summary_total_enrolments : Z;
  age_group_breakdown : AgeGroupBreakdown;
  daily_statistics : DailyStatistics;
  unique_pincodes : Z;
  date_range : DateRange
}.

Record Temporal := mkTemporal {
  daily_trend : list (Timestamp * Z);
  monthly_trend : list ((Z * Z) * Z);
  day_of_week_pattern : list (string * Z);
  trend_direction : string
}.




(** The order of the [(year, month)] keys. *)
Definition pair_compare (a b : Z * Z) : comparison :=
  match a.1 ?= b.1 with
  | Eq => a.2 ?= b.2
  | c => c
  end.

(** [s.iloc[i]]: a negative position counts from the end. *)
Definition iloc {A} (s : list A) (i : Z) : result A :=
  let n := Z.of_nat (length s) in
  let j := if i <? 0 then n + i else i in
  if (0 <=? j) && (j <? n)
  then match s !! Z.to_nat j with
       | Some a => Ok a
       | None => Raise IndexError
       end
  else Raise IndexError.

(** [Timedelta.days] of the difference of two timestamps. *)
Definition timedelta_days (a b : option Timestamp) : option Z :=
  match a, b with
  | Some a, Some b => Some ((a - b) `div` NS_PER_DAY)
  | _, _ => None
  end.

Definition dow_order : list string :=
  ["Monday"; "Tuesday"; "Wednesday"; "Thursday"; "Friday"; "Saturday"; "Sunday"].

(** [s.reindex(index, fill_value=v)]. *)
Definition reindex (index : list string) (fill_value : Z)
    (s : list (string * Z)) : list (string * Z) :=
  map (λ k, (k, default fill_value ((list_to_map s : gmap string Z) !! k))) index.

Section Analysis.
Context `{Library}.

(** [t.strftime('%Y-%m-%d')]; NaT has no [strftime]. *)
Definition strftime (t : option Timestamp) : result string :=
  match t with
  | Some t => Ok (strftime_ymd t)
  | None => Raise ValueError
  end.

(** The dictionary is built entry by entry, top to bottom; the first
    conversion that fails ends the call. *)
Definition calculate_summary_statistics (df : list Row) : result Summary :=
  let total_enrolments := col_sum total df in
  let breakdown :=
    {| sum_age_0_5 := col_sum age_0_5 df;
       sum_age_5_17 := col_sum age_5_17 df;
       sum_age_18_greater := col_sum age_18_greater df |} in
  let daily := (daily_sum total df).*2 in
  let mean := series_mean daily in
  let median := series_median daily in
  let std := series_std daily in
  min ← py_int (series_min daily);
  max ← py_int (series_max daily);
  let unique_pincodes := nunique (map pincode df) in
  let dates := map date df in
  start ← strftime (series_min dates);
  end_ ← strftime (series_max dates);
  let days := timedelta_days (series_max dates) (series_min dates) in
  Ok {| summary_total_enrolments := total_enrolments;
        age_group_breakdown := breakdown;
        daily_statistics := mkDailyStatistics mean median std min max;
        unique_pincodes := unique_pincodes;
        date_range := mkDateRange start end_ days |}.

(** [weekly] is computed by the source and never read; it is left
    out. *)
Definition analyze_temporal_trends (df : list Row) : result Temporal :=
  let daily := daily_sum total df in
  let monthly :=
    agg (col_sum total)
      (groupby pair_compare (λ r, (year (derived r), month (derived r))) df) in
  let dow_pattern :=
    agg (col_sum total)
      (groupby String.compare (λ r, day_of_week (derived r)) df) in
  let dow_pattern := reindex dow_order 0 dow_pattern in
  last ← iloc daily.*2 (-1);
  first ← iloc daily.*2 0;
  Ok {| daily_trend := daily;
        monthly_trend := monthly;
        day_of_week_pattern := dow_pattern;
        trend_direction :=
          if first <? last then "increasing" else "decreasing" |}.

End Analysis.

(** ** anomaly_model.py: the anomaly engine *)

Record ZscoreRow := mkZscoreRow {
  z_date : Timestamp;
  z_value : Z;
  z_score : float64;
  is_anomaly : bool;
  anomaly_type : string
}.

Record RollingRow := mkRollingRow {
  r_date : Timestamp;
  r_value : Z;
  rolling_mean : float64;
  rolling_std : float64;
  deviation : float64;
  threshold_value : float64;
  is_rolling_anomaly : bool;
  anomaly_severity : float64
}.

(** The lambda [calculate_zscore_anomalies] applies to every z-score. *)
Definition classify (threshold x : float64) : string :=
  if fgt x threshold then "high"
  else if flt x (fopp threshold) then "low"
  else "normal".

Definition calculate_zscore_anomalies (df : list Row) (column : Row → Z)
    (threshold : float64) : list ZscoreRow :=
  let daily := daily_sum column df in
  let mean := series_mean daily.*2 in
  let std := series_std daily.*2 in
  map (λ dv,
         let z := fdiv (fsub (float_of_int dv.2) mean) std in
         {| z_date := dv.1;
            z_value := dv.2;
            z_score := z;
            is_anomaly := fgt (fabs z) threshold;
            anomaly_type := classify threshold z |})
      daily.

(** The observations [rolling(window, center=True)] sees at position
    [i]: the bounds are those of the fixed window indexer, clipped to
    the series. *)
Definition window_at (window : Z) (s : list Z) (i : nat) : list Z :=
  let n := Z.of_nat (length s) in
  let offset := (window - 1) `div` 2 in
  let end_ := Z.of_nat i + 1 + offset in
  let start := end_ - window in
  let end_ := Z.max 0 (Z.min end_ n) in
  let start := Z.max 0 (Z.min start n) in
  take (Z.to_nat (end_ - start)) (drop (Z.to_nat start) s).

(** One value of [s.rolling(window, center=True).f()]: [min_periods] is
    the window size, so a window cut short by either end of the series
    gives NaN. *)
Definition rolling_at (f : list Z → float64) (window : Z) (s : list Z)
    (i : nat) : float64 :=
  let w := window_at window s i in
  if Z.of_nat (length w) <? window then NaN else f w.

Definition rolling (f : list Z → float64) (window : Z) (s : list Z) :
    list float64 :=
  imap (λ i _, rolling_at f window s i) s.

(** One row of the result, from the day, its rolling statistics and the
    multiplier. *)
Definition rolling_row (threshold : float64) (dv : Timestamp * Z)
    (rmean rstd : float64) : RollingRow :=
  let deviation := fabs (fsub (float_of_int dv.2) rmean) in
  let threshold_value := fmul rstd threshold in
  {| r_date := dv.1;
     r_value := dv.2;
     rolling_mean := rmean;
     rolling_std := rstd;
     deviation := deviation;
     threshold_value := threshold_value;
     is_rolling_anomaly := fgt deviation threshold_value;
     anomaly_severity := fillna (Fin 0) (fdiv deviation threshold_value) |}.

(** A negative window is refused by [rolling]. *)
Definition calculate_rolling_anomalies (df : list Row) (column : Row → Z)
    (window : Z) (threshold : float64) : result (list RollingRow) :=
  let daily := daily_sum column df in
  let daily := sort_values fst true daily in
  if window <? 0 then Raise ValueError
  else
    let rmean := rolling series_mean window daily.*2 in
    let rstd := rolling series_std window daily.*2 in
    Ok (zip_with (λ dv ms, rolling_row threshold dv ms.1 ms.2)
          daily (zip rmean rstd)).

(** ** A reference instance of the library

    The proleptic Gregorian calendar on nanosecond timestamps, with the
    day-month-year parser of the ingestion step.  The general parser of
    this instance reads the ISO form [YYYY-MM-DD] and the text [NaT]
    only; [int] reads an optional sign and decimal digits. *)

Module Gregorian.
Definition days_from_civil (y m d : Z) : Z :=
  let y := if m <=? 2 then y - 1 else y in
  let era := y `div` 400 in
  let yoe := y - era * 400 in
  let mp := (m + 9) `mod` 12 in
  let doy := (153 * mp + 2) `div` 5 + d - 1 in
  let doe := yoe * 365 + yoe `div` 4 - yoe `div` 100 + doy in
  era * 146097 + doe - 719468.

Definition civil_from_days (z : Z) : Z * Z * Z :=
  let z := z + 719468 in
  let era := z `div` 146097 in
  let doe := z - era * 146097 in
  let yoe := (doe - doe `div` 1460 + doe `div` 36524 - doe `div` 146096) `div` 365 in
  let doy := doe - (365 * yoe + yoe `div` 4 - yoe `div` 100) in
  let mp := (5 * doy + 2) `div` 153 in
  let d := doy - (153 * mp + 2) `div` 5 + 1 in
  let m := if mp <? 10 then mp + 3 else mp - 9 in
  let y := yoe + era * 400 in
  (if m <=? 2 then y + 1 else y, m, d).

Definition days_of (t : Z) : Z := t `div` NS_PER_DAY.
Definition weekday (t : Z) : Z := (days_of t + 3) `mod` 7.
Definition isoweek (t : Z) : Z :=
  let thursday := days_of t - weekday t + 3 in
  let jan1 := days_from_civil (civil_from_days thursday).1.1 1 1 in
  (thursday - jan1) `div` 7 + 1.

Definition digit (c : ascii) : option Z :=
  let n := Z.of_nat (nat_of_ascii c) in
  if (48 <=? n) && (n <=? 57) then Some (n - 48) else None.

Definition number (s : list ascii) : option Z :=
  match s with
  | [] => None
  | _ => foldl (λ acc c, a ← acc; d ← digit c; Some (10 * a + d)) (Some 0) s
  end.

Fixpoint split_on (sep : ascii) (s : list ascii) : list (list ascii) :=
  match s with
  | [] => [[]]
  | c :: s' =>
      if Ascii.eqb c sep then [] :: split_on sep s'
      else match split_on sep s' with
           | w :: ws => (c :: w) :: ws
           | [] => [[c]]
           end
  end.

Definition civil (y m d : Z) : option Z :=
  if (1 <=? m) && (m <=? 12) && (1 <=? d)
     && bool_decide (civil_from_days (days_from_civil y m d) = (y, m, d))
  then Some (days_from_civil y m d * NS_PER_DAY) else None.

Definition parse_dmy (s : string) : option Z :=
  match split_on "-"%char (list_ascii_of_string s) with
  | [d; m; y] =>
      if (length d <=? 2)%nat && (length m <=? 2)%nat && (length y =? 4)%nat
      then d ← number d; m ← number m; y ← number y; civil y m d
      else None
  | _ => None
  end.

Definition parse_ymd (s : string) : option Z :=
  match split_on "-"%char (list_ascii_of_string s) with
  | [y; m; d] =>
      if (length d =? 2)%nat && (length m =? 2)%nat && (length y =? 4)%nat
      then d ← number d; m ← number m; y ← number y; civil y m d
      else None
  | _ => None
  end.

Definition two (n : Z) : string :=
  if n <? 10 then "0" +:+ pretty n else pretty n.

Definition format_ymd (t : Z) : string :=
  let '(y, m, d) := civil_from_days (days_of t) in
  pretty y +:+ "-" +:+ two m +:+ "-" +:+ two d.

Definition month_names : list string :=
  ["January"; "February"; "March"; "April"; "May"; "June"; "July";
   "August"; "September"; "October"; "November"; "December"].
Definition day_names : list string :=
  ["Monday"; "Tuesday"; "Wednesday"; "Thursday"; "Friday"; "Saturday"; "Sunday"].

Definition parse_general (s : string) : result (option Z) :=
  if String.eqb s "NaT" then Ok None
  else match parse_ymd s with
       | Some t => Ok (Some t)
       | None => Raise ValueError
       end.

Definition parse_int (s : string) : result Z :=
  let signed (neg : bool) (ds : list ascii) :=
    match number ds with
    | Some n => Ok (if neg then - n else n)
    | None => Raise ValueError
    end in
  match list_ascii_of_string s with
  | "-"%char :: ds => signed true ds
  | "+"%char :: ds => signed false ds
  | ds => signed false ds
  end.

Definition name_of (names : list string) (i : Z) : string :=
  default "" (names !! Z.to_nat i).
End Gregorian.

#[global] Instance gregorian : Library := {|
  strptime_dmy := Gregorian.parse_dmy;
  to_datetime := Gregorian.parse_general;
  int_of_str := Gregorian.parse_int;
  dt_year t := (Gregorian.civil_from_days (Gregorian.days_of t)).1.1;
  dt_month t := (Gregorian.civil_from_days (Gregorian.days_of t)).1.2;
  dt_month_name t :=
    Gregorian.name_of Gregorian.month_names
      ((Gregorian.civil_from_days (Gregorian.days_of t)).1.2 - 1);
  dt_day t := (Gregorian.civil_from_days (Gregorian.days_of t)).2;
  dt_day_name t := Gregorian.name_of Gregorian.day_names (Gregorian.weekday t);
  dt_isoweek := Gregorian.isoweek;
  strftime_ymd := Gregorian.format_ymd
|}.

(** ** The statistics as the design document defines them *)

(** The mean [μ] and the sample standard deviation [σ] of a series, as
    real numbers, for comparison with the reductions above. *)
Definition Rsum (l : list R) : R := foldr Rplus 0%R l.

Definition mean_R (s : list Z) : R :=
  (IZR (series_sum s) / IZR (Z.of_nat (length s)))%R.

Definition sum_sq_dev (s : list Z) : R :=
  Rsum (map (λ x, (mean_R s - IZR x) * (mean_R s - IZR x))%R s).

Definition var_R (s : list Z) : R :=
  (sum_sq_dev s / IZR (Z.of_nat (length s) - 1))%R.

Definition std_R (s : list Z) : R := sqrt (var_R s).

(** ** What the filters are to compute *)

(** [m] run in store [h] returns a reference to a table equal to [t],
    and every table of [h] is in the final store as it was: nothing the
    caller holds was written to. *)
Definition produces (m : Py loc) (h : store) (t : list Row) : Prop :=
  ∃ l h', m h = (Ok l, h') ∧ h' !! l = Some t ∧ h ⊆ h'.

(** The rows between two bounds, both included; [None] is a bound that
    was left out. *)
Definition between (lo hi : option Timestamp) (r : Row) : bool :=
  match lo with
  | Some s => s <=? date r
  | None => true
  end
  &&
  match hi with
  | Some e => date r <=? e
  | None => true
  end.

(** The bound an argument of [filter_by_date_range] stands for. *)
Inductive denotes `{Library} : DateArg → option Timestamp → Prop :=
  | denotes_none : denotes ArgNone None
  | denotes_empty : denotes (ArgStr "") None
  | denotes_stamp t : denotes (ArgStamp t) (Some t)
  | denotes_text s t :
      s ≠ "" → to_datetime s = Ok (Some t) → denotes (ArgStr s) (Some t).

(** The codes an argument of [filter_by_pincode] stands for. *)
Definition codes_of `{Library} (pincodes : PinArg) : result (list Z) :=
  match pincodes with
  | PinScalar v => ints_of [v]
  | PinList l => ints_of l
  end.

(** ** Predicates of the properties *)





(** What [rolling_row] needs to know of the rolling statistics of a day
    of value [v]: the deviation is undefined, or both statistics are
    finite and a deviation of zero means that [v] is the mean. *)
Definition window_stats (v : Z) (rmean rstd : float64) : Prop :=
  rstd = NaN
  ∨ ∃ μ σ, rmean = Fin μ ∧ rstd = Fin σ ∧ (σ = 0%R → IZR v = μ).

(** The bounds of the window at position [i], after clipping. *)
Definition window_start (window : Z) (n : Z) (i : nat) : Z :=
  Z.max 0 (Z.min (Z.of_nat i + 1 + (window - 1) `div` 2 - window) n).

Definition window_end (window : Z) (n : Z) (i : nat) : Z :=
  Z.max 0 (Z.min (Z.of_nat i + 1 + (window - 1) `div` 2) n).

(** ** Example tables *)

(** A raw row of the district the default dataset covers. *)
Definition raw_row (d : string) (pin a b c : Z) : RawRow :=
  mkEnrolment (DText d) "West Bengal" "Birbhum" pin a b c None.

(** Four rows on three days, out of order, and one unreadable date. *)
Definition example_raw : list RawRow :=
  [ raw_row "03-01-2024" 731101 4 0 6;
    raw_row "01-01-2024" 700001 2 3 5;
    raw_row "31-02-2024" 731204 9 9 9;
    raw_row "02-01-2024" 731101 1 1 1;
    raw_row "01-01-2024" 731204 0 2 0 ].

Definition example_df : list Row :=
  Eval vm_compute in preprocess_data example_raw.

(** Three days with totals 0, 0 and 3. *)
Definition spike_df : list Row :=
  Eval vm_compute in
    preprocess_data [ raw_row "01-01-2024" 700001 0 0 0;
                      raw_row "02-01-2024" 700001 0 0 0;
                      raw_row "03-01-2024" 700001 1 1 1 ].

(** One row without any enrolment. *)
Definition zero_df : list Row :=
  Eval vm_compute in preprocess_data [raw_row "01-01-2024" 700001 0 0 0].

(** * Properties *)

(** Decides the comparisons of reals that stand in a goal or hypothesis,
    closing the impossible branches by linear arithmetic. *)
Ltac real_cases :=
  repeat match goal with
    | |- context [decide (?x = ?y)%R] =>
        destruct (decide (x = y)%R); try lra
    | |- context [decide (?x < ?y)%R] =>
        destruct (decide (x < y)%R); try lra
    | |- context [bool_decide (?x < ?y)%R] =>
        destruct (bool_decide_reflect (x < y)%R); try lra
    end.

(** ** The schema validator *)

Lemma missing_cols_empty (required cols : list string) :
  (list_to_set required ∖ list_to_set cols : gset string) = ∅
  ↔ ∀ c, c ∈ required → c ∈ cols.
Proof.
  split.
  - intros Hempty c Hc.
    destruct (decide (c ∈ cols)) as [|Hnot]; [done|].
    assert (c ∈ (list_to_set required ∖ list_to_set cols : gset string))
      as Hin by set_solver.
    rewrite Hempty in Hin. by apply elem_of_empty in Hin.
  - intros Hall. apply set_eq. intros c.
    rewrite elem_of_difference, !elem_of_list_to_set, elem_of_empty.
    split; [|done]. intros [Hc Hnot]. by apply Hnot, Hall.
Qed.

Lemma validate_columns_ok (df : CsvFrame) :
  validate_columns df = Ok true ↔ ∀ c, c ∈ REQUIRED_COLUMNS → c ∈ columns df.
Proof.
  unfold validate_columns. rewrite <- missing_cols_empty.
  case_decide; split; intros; try done; congruence.
Qed.

Lemma validate_columns_raise (df : CsvFrame) :
  validate_columns df = Raise ValueError
  ↔ ∃ c, c ∈ REQUIRED_COLUMNS ∧ c ∉ columns df.
Proof.
  unfold validate_columns. case_decide as Hm; split.
  - done.
  - intros (c & Hc & Hnot). rewrite missing_cols_empty in Hm. naive_solver.
  - intros _.
    destruct (decide (Forall (λ c, c ∈ columns df) REQUIRED_COLUMNS))
      as [Hall|Hnall].
    + exfalso. apply Hm, missing_cols_empty. by apply Forall_forall.
    + apply not_Forall_Exists in Hnall; [|apply _].
      apply Exists_exists in Hnall. naive_solver.
  - done.
Qed.

(** C9. The validator raises exactly when a required column is absent
    and answers [True] exactly when all are present; it has no other
    outcome.  [load_data] runs it on the frame just read and hands the
    frame over only when it passed, so with a column missing the caller
    gets the error and no table, and [validate_uploaded_file] reports a
    failure without data. *)
Theorem validate_columns_fatal_iff_missing (df : CsvFrame) :
  (validate_columns df = Raise ValueError
     ↔ ∃ c, c ∈ REQUIRED_COLUMNS ∧ c ∉ columns df)
  ∧ (validate_columns df = Ok true
     ↔ ∀ c, c ∈ REQUIRED_COLUMNS → c ∈ columns df)
  ∧ (validate_columns df = Raise ValueError ∨ validate_columns df = Ok true)
  ∧ ∀ base fs path, fs path = Some df →
      ((∃ c, c ∈ REQUIRED_COLUMNS ∧ c ∉ columns df) →
         load_data base fs (Some path) = Raise ValueError
         ∧ validate_uploaded_file base fs path = (false, None))
      ∧ ((∀ c, c ∈ REQUIRED_COLUMNS → c ∈ columns df) →
         load_data base fs (Some path) = Ok df).
Proof.
  split; [apply validate_columns_raise|].
  split; [apply validate_columns_ok|].
  split.
  { unfold validate_columns. case_decide; auto. }
  intros base fs path Hfs. split.
  - intros Hmiss%validate_columns_raise.
    unfold validate_uploaded_file, load_data. simpl. by rewrite Hfs, Hmiss.
  - intros Hall%validate_columns_ok.
    unfold load_data. simpl. by rewrite Hfs, Hall.
Qed.

(** A frame without the [pincode] column is refused, one with every
    required column (and one more) is accepted. *)
Lemma validate_columns_fatal_iff_missing_witness :
  validate_columns
    (mkCsvFrame ["date"; "state"; "district"; "age_0_5"; "age_5_17";
                 "age_18_greater"] []) = Raise ValueError
  ∧ load_data "/srv"
      (λ _, Some (mkCsvFrame ["pincode"; "date"; "state"; "district";
                              "age_0_5"; "age_5_17"; "age_18_greater";
                              "remarks"] []))
      (Some "upload.csv")
    = Ok (mkCsvFrame ["pincode"; "date"; "state"; "district";
                      "age_0_5"; "age_5_17"; "age_18_greater"; "remarks"] []).
Proof.
  split.
  - apply (proj1 (validate_columns_fatal_iff_missing _)).
    exists "pincode". split; apply (bool_decide_unpack _); by vm_compute.
  - apply (proj2 (proj2 (proj2 (validate_columns_fatal_iff_missing _)))
             "/srv" _ "upload.csv" eq_refl).
    apply Forall_forall, (bool_decide_unpack _). by vm_compute.
Defined.

(** ** Sorting *)

Section SortingFacts.
Context {A : Type} (key : A → Z) (ascending : bool).

Lemma key_le_total (a b : A) :
  key_le key ascending a b = false → key_le key ascending b a = true.
Proof. unfold key_le. destruct ascending; lia. Qed.

Lemma sort_insert_Permutation (a : A) (l : list A) :
  sort_insert key ascending a l ≡ₚ a :: l.
Proof.
  induction l as [|b l IH]; simpl; [done|].
  destruct (key_le key ascending a b); [done|].
  rewrite IH. apply Permutation_swap.
Qed.

Lemma sort_values_Permutation (l : list A) :
  sort_values key ascending l ≡ₚ l.
Proof.
  induction l as [|a l IH]; simpl; [done|].
  by rewrite sort_insert_Permutation, IH.
Qed.

Lemma sort_values_length (l : list A) :
  length (sort_values key ascending l) = length l.
Proof. apply Permutation_length, sort_values_Permutation. Qed.

Lemma sort_insert_sorted (a : A) (l : list A) :
  key_sorted key ascending l →
  key_sorted key ascending (sort_insert key ascending a l).
Proof.
  induction 1 as [|b|b c l Hbc Hs IH]; simpl.
  - constructor.
  - destruct (key_le key ascending a b) eqn:Hab.
    + constructor; [done|constructor].
    + constructor; [by apply key_le_total|constructor].
  - destruct (key_le key ascending a b) eqn:Hab.
    + constructor; [done|by constructor].
    + simpl in IH. destruct (key_le key ascending a c) eqn:Hac.
      * constructor; [by apply key_le_total|done].
      * by constructor.
Qed.

Lemma sort_values_sorted (l : list A) :
  key_sorted key ascending (sort_values key ascending l).
Proof.
  induction l; simpl; [constructor|by apply sort_insert_sorted].
Qed.

(** A stable sort leaves a sorted list as it is. *)
Lemma sort_values_of_sorted (l : list A) :
  key_sorted key ascending l → sort_values key ascending l = l.
Proof.
  induction 1 as [|a|a b l Hab Hs IH]; simpl; [done..|].
  simpl in IH. rewrite IH. simpl. by rewrite Hab.
Qed.

Lemma sort_values_idempotent (l : list A) :
  sort_values key ascending (sort_values key ascending l)
  = sort_values key ascending l.
Proof. apply sort_values_of_sorted, sort_values_sorted. Qed.

End SortingFacts.






(** ** The derived total *)





(** ** Grouping *)

Section GroupByFacts.
Context {A K : Type} (cmp : K → K → comparison) (key : A → K).




Lemma group_insert_nonempty (r : A) (gs : list (K * list A)) :
  group_insert cmp key r gs ≠ [].
Proof. destruct gs as [|[k g] gs]; simpl; [done|]. by destruct (cmp _ _). Qed.

Lemma fold_group_insert_nonempty (df : list A) (gs : list (K * list A)) :
  gs ≠ [] → fold_left (λ gs r, group_insert cmp key r gs) df gs ≠ [].
Proof.
  revert gs. induction df as [|r df IH]; intros gs Hgs; simpl; [done|].
  apply IH, group_insert_nonempty.
Qed.

Lemma groupby_nonempty (df : list A) :
  df ≠ [] → groupby cmp key df ≠ [].
Proof.
  destruct df as [|r df]; [done|]. intros _. unfold groupby. simpl.
  by apply fold_group_insert_nonempty.
Qed.

Lemma group_insert_groups_nonempty (r : A) (gs : list (K * list A)) :
  Forall (λ kg, kg.2 ≠ []) gs →
  Forall (λ kg, kg.2 ≠ []) (group_insert cmp key r gs).
Proof.
  induction 1 as [|[k g] gs Hg Hgs IH]; simpl.
  - by repeat constructor.
  - destruct (cmp (key r) k); repeat constructor; simpl; try done.
    by destruct g.
Qed.

Lemma groupby_groups_nonempty (df : list A) :
  Forall (λ kg, kg.2 ≠ []) (groupby cmp key df).
Proof.
  unfold groupby. generalize (Forall_nil_2 (λ kg : K * list A, kg.2 ≠ [])).
  generalize (@nil (K * list A)). induction df as [|r df IH]; simpl; [done|].
  intros gs Hgs. by apply IH, group_insert_groups_nonempty.
Qed.


End GroupByFacts.

Lemma daily_sum_nonempty (column : Row → Z) (df : list Row) :
  df ≠ [] → (daily_sum column df).*2 ≠ [].
Proof.
  intros Hdf%(groupby_nonempty Z.compare date).
  unfold daily_sum, agg. destruct (groupby Z.compare date df); [done|].
  done.
Qed.

Lemma series_min_is_Some (s : list Z) : s ≠ [] → is_Some (series_min s).
Proof. destruct s; [done|]. by eexists. Qed.

Lemma series_max_is_Some (s : list Z) : s ≠ [] → is_Some (series_max s).
Proof. destruct s; [done|]. by eexists. Qed.

(** ** Positional access *)

Lemma iloc_first {A} (s : list A) (a : A) :
  head s = Some a → iloc s 0 = Ok a.
Proof.
  destruct s as [|b s]; [done|]. by intros [= ->].
Qed.

Lemma iloc_last {A} (s : list A) (a : A) :
  last s = Some a → iloc s (-1) = Ok a.
Proof.
  intros Hlast. assert (s ≠ []) as Hne by (by intros ->).
  assert (0 < length s)%nat as Hlen by (destruct s; simpl; [done|lia]).
  unfold iloc. simpl.
  replace (0 <=? Z.of_nat (length s) + -1) with true by lia.
  replace (Z.of_nat (length s) + -1 <? Z.of_nat (length s)) with true by lia.
  simpl. rewrite last_lookup in Hlast.
  replace (Z.to_nat (Z.of_nat (length s) + -1)) with (pred (length s)) by lia.
  by rewrite Hlast.
Qed.

Lemma iloc_nil {A} (i : Z) : iloc (@nil A) i = Raise IndexError.
Proof.
  unfold iloc. simpl. by destruct (_ && _).
Qed.

(** ** The analysis engine on empty and non-empty tables *)

Section AnalysisFacts.
Context `{Library}.

Lemma summary_of_nonempty (df : list Row) :
  df ≠ [] →
  ∃ lo hi first_day last_day,
    series_min (daily_sum total df).*2 = Some lo
    ∧ series_max (daily_sum total df).*2 = Some hi
    ∧ series_min (map date df) = Some first_day
    ∧ series_max (map date df) = Some last_day
    ∧ calculate_summary_statistics df =
        Ok {| summary_total_enrolments := col_sum total df;
              age_group_breakdown :=
                {| sum_age_0_5 := col_sum age_0_5 df;
                   sum_age_5_17 := col_sum age_5_17 df;
                   sum_age_18_greater := col_sum age_18_greater df |};
              daily_statistics :=
                {| daily_mean := series_mean (daily_sum total df).*2;
                   daily_median := series_median (daily_sum total df).*2;
                   daily_std := series_std (daily_sum total df).*2;
                   daily_min := lo;
                   daily_max := hi |};
              unique_pincodes := nunique (map pincode df);
              date_range :=
                {| range_start := strftime_ymd first_day;
                   range_end := strftime_ymd last_day;
                   range_days :=
                     Some ((last_day - first_day) `div` NS_PER_DAY) |} |}.
Proof.
  intros Hdf.
  destruct (series_min_is_Some _ (daily_sum_nonempty total df Hdf)) as [lo Hlo].
  destruct (series_max_is_Some _ (daily_sum_nonempty total df Hdf)) as [hi Hhi].
  assert (map date df ≠ []) as Hdates by (by destruct df).
  destruct (series_min_is_Some _ Hdates) as [d0 Hd0].
  destruct (series_max_is_Some _ Hdates) as [d1 Hd1].
  exists lo, hi, d0, d1. repeat split; try done.
  unfold calculate_summary_statistics.
  rewrite Hlo, Hhi, Hd0, Hd1. done.
Qed.

Lemma summary_of_empty :
  calculate_summary_statistics [] = Raise ValueError.
Proof. done. Qed.
End AnalysisFacts.

Lemma temporal_of_nonempty (df : list Row) :
  df ≠ [] →
  ∃ first last_,
    head (daily_sum total df).*2 = Some first
    ∧ last (daily_sum total df).*2 = Some last_
    ∧ ∃ a, analyze_temporal_trends df = Ok a
        ∧ daily_trend a = daily_sum total df
        ∧ trend_direction a
          = if first <? last_ then "increasing" else "decreasing".
Proof.
  intros Hdf%(daily_sum_nonempty total).
  destruct (head (daily_sum total df).*2) as [first|] eqn:Hfirst;
    [|by apply head_None in Hfirst].
  destruct (last (daily_sum total df).*2) as [last_|] eqn:Hlast;
    [|by apply last_None in Hlast].
  exists first, last_. repeat split.
  unfold analyze_temporal_trends.
  rewrite (iloc_last _ _ Hlast), (iloc_first _ _ Hfirst).
  eexists. split; [reflexivity|]. done.
Qed.

Lemma temporal_of_empty : analyze_temporal_trends [] = Raise IndexError.
Proof. done. Qed.


Example example_df_dates :
  map (λ r, (strftime_ymd (date r), day_of_week (derived r), total r)) example_df
  = [("2024-01-01", "Monday", 10); ("2024-01-01", "Monday", 2);
     ("2024-01-02", "Tuesday", 3); ("2024-01-03", "Wednesday", 10)].
Proof. vm_compute. reflexivity. Qed.

(** C1 (as amended). [calculate_summary_statistics] answers on every
    non-empty preprocessed table, with the column sums as totals, the
    smallest and largest per-day sum and a defined day count; on the
    empty table it raises [ValueError] - the minimum of the empty
    per-day series is NaN, which [int] refuses - and gives no zeroed
    result. *)
Theorem summary_statistics_defined_on_nonempty `{Library} :
  (∀ df : list Row, df ≠ [] →
     ∃ s, calculate_summary_statistics df = Ok s
       ∧ summary_total_enrolments s = col_sum total df
       ∧ sum_age_0_5 (age_group_breakdown s) = col_sum age_0_5 df
       ∧ sum_age_5_17 (age_group_breakdown s) = col_sum age_5_17 df
       ∧ sum_age_18_greater (age_group_breakdown s) = col_sum age_18_greater df
       ∧ series_min (daily_sum total df).*2 = Some (daily_min (daily_statistics s))
       ∧ series_max (daily_sum total df).*2 = Some (daily_max (daily_statistics s))
       ∧ is_Some (range_days (date_range s)))
  ∧ calculate_summary_statistics [] = Raise ValueError.
Proof.
  split; [|apply summary_of_empty].
  intros df Hdf.
  destruct (summary_of_nonempty df Hdf) as (lo & hi & d0 & d1 & Hlo & Hhi & _ & _ & ->).
  eexists. split; [reflexivity|]. simpl. by repeat split.
Qed.

Lemma summary_statistics_defined_on_nonempty_witness :
  ∃ s, calculate_summary_statistics example_df = Ok s
     ∧ summary_total_enrolments s = 25.
Proof.
  destruct (proj1 summary_statistics_defined_on_nonempty example_df)
    as (s & Hs & Htotal & _); [done|].
  exists s. split; [exact Hs|]. rewrite Htotal. reflexivity.
Defined.

(** C1 as stated fails on the empty table: there is no result, zeroed or
    otherwise. *)
Lemma summary_statistics_empty_table_raises :
  ¬ ∃ s, calculate_summary_statistics [] = Ok s
       ∧ summary_total_enrolments s = 0.
Proof. intros (s & Hs & _). by rewrite summary_of_empty in Hs. Qed.

(** C8. On a non-empty table [analyze_temporal_trends] answers, and its
    trend direction compares two points of the per-day series only: it
    is "increasing" exactly when the last day's total exceeds the first
    day's, and "decreasing" in every other case, equality included. *)
Theorem trend_direction_two_point (df : list Row) :
  df ≠ [] →
  ∃ a first last_,
    analyze_temporal_trends df = Ok a
    ∧ daily_trend a = daily_sum total df
    ∧ head (daily_sum total df).*2 = Some first
    ∧ last (daily_sum total df).*2 = Some last_
    ∧ (trend_direction a = "increasing" ↔ first < last_)
    ∧ (trend_direction a = "decreasing" ↔ last_ ≤ first).
Proof.
  intros Hdf.
  destruct (temporal_of_nonempty df Hdf)
    as (first & last_ & Hfirst & Hlast & a & Ha & Hdaily & Hdir).
  exists a, first, last_. repeat split; try done; rewrite Hdir;
    destruct (first <? last_) eqn:Hcmp; try done; lia.
Qed.

Lemma trend_direction_two_point_witness :
  ∃ a, analyze_temporal_trends example_df = Ok a
     ∧ trend_direction a = "decreasing".
Proof.
  destruct (trend_direction_two_point example_df)
    as (a & first & last_ & Ha & _ & Hfirst & Hlast & _ & Hdec); [done|].
  exists a. split; [exact Ha|]. apply Hdec.
  vm_compute in Hfirst. vm_compute in Hlast.
  injection Hfirst as <-. injection Hlast as <-. done.
Defined.

(** ** Arithmetic of the idealised floats *)

Lemma fdiv_int (a b : Z) :
  b ≠ 0 → fdiv (float_of_int a) (float_of_int b) = Fin (IZR a / IZR b).
Proof.
  intros Hb. unfold fdiv, float_of_int.
  destruct (decide (IZR b = 0)%R) as [Hz|]; [|done].
  by apply eq_IZR_R0 in Hz.
Qed.

Lemma fdiv_int_zero (a : Z) :
  fdiv (float_of_int a) (float_of_int 0)
  = if decide (a = 0) then NaN else inf_of_sign (IZR a).
Proof.
  unfold fdiv, float_of_int.
  destruct (decide (IZR 0 = 0)%R); [|lra].
  destruct (decide (a = 0)) as [->|Ha].
  - destruct (decide (IZR 0 = 0)%R); [done|lra].
  - destruct (decide (IZR a = 0)%R) as [Hz|]; [|done].
    by apply eq_IZR_R0 in Hz.
Qed.



(** ** Geographic concentration *)









(** ** The store *)

Lemma fresh_lookup (h : store) : h !! fresh (dom h) = None.
Proof. apply not_elem_of_dom, is_fresh. Qed.

Lemma alloc_produces (t : list Row) (h : store) : produces (alloc t) h t.
Proof.
  exists (fresh (dom h)), (<[fresh (dom h) := t]> h). split; [done|].
  split; [apply lookup_insert_eq|]. apply insert_subseteq, fresh_lookup.
Qed.

Lemma produces_bind (m : Py loc) (k : loc → Py loc) (h : store)
    (t t' : list Row) :
  produces m h t →
  (∀ l h', h' !! l = Some t → produces (k l) h' t') →
  produces (m ≫= k) h t'.
Proof.
  intros (l & h1 & Hm & Hl & Hsub) Hk.
  destruct (Hk l h1 Hl) as (l' & h2 & Hk' & Hl' & Hsub').
  exists l', h2. split; [|split; [done|by etrans]].
  unfold mbind, Py_bind. by rewrite Hm.
Qed.

Lemma produces_ret (l : loc) (h : store) (t : list Row) :
  h !! l = Some t → produces (mret l) h t.
Proof. intros Hl. by exists l, h. Qed.

Lemma deref_bind (l : loc) (k : list Row → Py loc) (h : store) (t : list Row) :
  h !! l = Some t → (deref l ≫= k) h = k t h.
Proof. intros Hl. unfold mbind, Py_bind, deref. by rewrite Hl. Qed.

Lemma copy_produces (df : loc) (h : store) (t : list Row) :
  h !! df = Some t → produces (copy df) h t.
Proof.
  intros Hdf. unfold produces, copy. rewrite (deref_bind _ _ _ _ Hdf).
  apply alloc_produces.
Qed.

Lemma getitem_mask_produces (df : loc) (mask : Row → bool) (h : store)
    (t : list Row) :
  h !! df = Some t → produces (getitem_mask df mask) h (List.filter mask t).
Proof.
  intros Hdf. unfold produces, getitem_mask. rewrite (deref_bind _ _ _ _ Hdf).
  apply alloc_produces.
Qed.

Lemma lift_bind {A} (m : result A) (a : A) (k : A → Py loc) (h : store) :
  m = Ok a → (lift m ≫= k) h = k a h.
Proof. intros ->. done. Qed.

Lemma filter_filter_andb {A} (f g : A → bool) (l : list A) :
  List.filter g (List.filter f l) = List.filter (λ a, f a && g a) l.
Proof.
  induction l as [|a l IH]; simpl; [done|].
  destruct (f a) eqn:Hf; simpl; [|done].
  destruct (g a); by rewrite IH.
Qed.

Lemma filter_ext_eq {A} (f g : A → bool) (l : list A) :
  (∀ a, f a = g a) → List.filter f l = List.filter g l.
Proof. intros Hfg. induction l as [|a l IH]; simpl; [done|]. by rewrite Hfg, IH. Qed.

Lemma filter_none {A} (f : A → bool) (l : list A) :
  (∀ a, a ∈ l → f a = false) → List.filter f l = [].
Proof.
  induction l as [|a l IH]; intros Hall; simpl; [done|].
  rewrite (Hall a) by by left. apply IH. intros b Hb. apply Hall. by right.
Qed.

Lemma filter_true {A} (l : list A) : List.filter (λ _, true) l = l.
Proof. induction l as [|a l IH]; simpl; [done|]. by rewrite IH. Qed.

(** ** The filter layer *)

Section FilterFacts.
Context `{Library}.

(** One bound of [filter_by_date_range]: the branch taken and the
    mask applied, for an argument that stands for the bound [b]. *)
Lemma bound_step (a : DateArg) (b : option Timestamp)
    (cmp : option Timestamp → Row → bool) (df : loc) (h : store)
    (t : list Row) :
  denotes a b → h !! df = Some t →
  produces
    (if truthy a
     then d ← lift (coerce_date a); getitem_mask df (cmp d)
     else mret df) h
    (List.filter (match b with Some _ => cmp b | None => λ _, true end) t).
Proof.
  intros Hden Hdf. destruct Hden as [| |ts|s ts Hs Hparse]; simpl.
  - rewrite filter_true. by apply produces_ret.
  - rewrite filter_true. by apply produces_ret.
  - by apply getitem_mask_produces.
  - destruct (String.eqb_spec s ""); [done|]. simpl.
    unfold produces. rewrite (lift_bind _ _ _ _ Hparse).
    by apply getitem_mask_produces.
Qed.

Lemma filter_by_date_range_produces (df : loc) (start_date end_date : DateArg)
    (lo hi : option Timestamp) (h : store) (t : list Row) :
  denotes start_date lo → denotes end_date hi → h !! df = Some t →
  produces (filter_by_date_range df start_date end_date) h
    (List.filter (between lo hi) t).
Proof.
  intros Hlo Hhi Hdf. unfold filter_by_date_range.
  eapply produces_bind; [by apply copy_produces|]. intros l1 h1 Hl1.
  eapply produces_bind; [exact (bound_step _ _ date_ge _ _ _ Hlo Hl1)|].
  intros l2 h2 Hl2.
  eapply produces_bind; [exact (bound_step _ _ date_le _ _ _ Hhi Hl2)|].
  intros l3 h3 Hl3. apply produces_ret. rewrite Hl3. f_equal.
  rewrite filter_filter_andb. apply filter_ext_eq. intros r.
  unfold between. by destruct lo, hi.
Qed.

Lemma filter_by_pincode_produces (df : loc) (pincodes : PinArg)
    (zs : list Z) (h : store) (t : list Row) :
  codes_of pincodes = Ok zs → h !! df = Some t →
  produces (filter_by_pincode df pincodes) h (List.filter (isin zs) t).
Proof.
  intros Hzs Hdf. unfold filter_by_pincode, produces.
  assert (ints_of match pincodes with PinScalar v => [v] | PinList l => l end
          = Ok zs) as Hints by (by destruct pincodes).
  rewrite (lift_bind _ _ _ _ Hints). by apply getitem_mask_produces.
Qed.

(** Only membership in the list of codes matters. *)
Lemma isin_set_semantics (zs zs' : list Z) (t : list Row) :
  (∀ z, z ∈ zs ↔ z ∈ zs') → List.filter (isin zs) t = List.filter (isin zs') t.
Proof.
  intros Hsame. apply filter_ext_eq. intros r. unfold isin.
  apply bool_decide_ext, Hsame.
Qed.
End FilterFacts.

Lemma filter_by_age_group_produces (df : loc) (age_groups : option (list string))
    (h : store) (t : list Row) :
  h !! df = Some t → produces (filter_by_age_group df age_groups) h t.
Proof.
  intros Hdf. unfold filter_by_age_group.
  eapply produces_bind; [by apply copy_produces|]. intros l1 h1 Hl1.
  destruct age_groups as [[|ag ags]|]; by apply produces_ret.
Qed.

(** C7. For a table [t] behind the reference [df], date arguments that
    stand for the bounds [lo] and [hi] ([None] for a bound left out) and
    a pincode argument that stands for the codes [zs]:
    [filter_by_date_range] returns the rows with [lo ≤ date ≤ hi], both
    ends included; [filter_by_pincode] returns the rows whose code is
    among [zs], so that arguments with the same set of codes give the
    same rows; applied one after the other, in either order, they return
    the rows that pass both; and after every one of these calls the
    store still holds [t] behind [df] (and every other table it held). *)
Theorem filters_pure_and_commute `{Library} (h : store) (df : loc)
    (t : list Row) (start_date end_date : DateArg) (lo hi : option Timestamp)
    (pincodes : PinArg) (zs : list Z) :
  h !! df = Some t →
  denotes start_date lo → denotes end_date hi → codes_of pincodes = Ok zs →
  let both := List.filter (λ r, between lo hi r && isin zs r) t in
  produces (filter_by_date_range df start_date end_date) h
    (List.filter (between lo hi) t)
  ∧ produces (filter_by_pincode df pincodes) h (List.filter (isin zs) t)
  ∧ (∃ l h', (d ← filter_by_date_range df start_date end_date;
              filter_by_pincode d pincodes) h = (Ok l, h')
       ∧ h' !! l = Some both ∧ h' !! df = Some t ∧ h ⊆ h')
  ∧ (∃ l h', (d ← filter_by_pincode df pincodes;
              filter_by_date_range d start_date end_date) h = (Ok l, h')
       ∧ h' !! l = Some both ∧ h' !! df = Some t ∧ h ⊆ h')
  ∧ (∀ r, r ∈ both ↔
       r ∈ t
       ∧ (∀ s, lo = Some s → s ≤ date r)
       ∧ (∀ e, hi = Some e → date r ≤ e)
       ∧ pincode r ∈ zs)
  ∧ (∀ pincodes' zs', codes_of pincodes' = Ok zs' →
       (∀ z, z ∈ zs ↔ z ∈ zs') →
       produces (filter_by_pincode df pincodes') h (List.filter (isin zs) t)).
Proof.
  intros Hdf Hlo Hhi Hzs both.
  pose proof (filter_by_date_range_produces df _ _ _ _ h t Hlo Hhi Hdf) as Hdate.
  pose proof (filter_by_pincode_produces df _ _ h t Hzs Hdf) as Hpin.
  split; [done|]. split; [done|].
  assert (produces (d ← filter_by_date_range df start_date end_date;
                    filter_by_pincode d pincodes) h both) as Hdp.
  { eapply produces_bind; [exact Hdate|]. intros l1 h1 Hl1.
    unfold both. rewrite <- filter_filter_andb.
    by apply filter_by_pincode_produces. }
  assert (produces (d ← filter_by_pincode df pincodes;
                    filter_by_date_range d start_date end_date) h both) as Hpd.
  { eapply produces_bind; [exact Hpin|]. intros l1 h1 Hl1.
    unfold both.
    rewrite (filter_ext_eq _ (λ r, isin zs r && between lo hi r))
      by (intros r; apply andb_comm).
    rewrite <- filter_filter_andb.
    by apply filter_by_date_range_produces. }
  split.
  { destruct Hdp as (l & h' & Hrun & Hl & Hsub). exists l, h'.
    repeat split; try done. by eapply lookup_weaken. }
  split.
  { destruct Hpd as (l & h' & Hrun & Hl & Hsub). exists l, h'.
    repeat split; try done. by eapply lookup_weaken. }
  split.
  - intros r. unfold both. rewrite list_elem_of_In, filter_In, <- list_elem_of_In.
    unfold between, isin.
    rewrite !andb_true_iff, bool_decide_eq_true.
    destruct lo as [s|], hi as [e|]; rewrite ?Z.leb_le; split;
      try (intros (Hin & [Hs He] & Hz); repeat split; try done;
           by intros ? [= <-]);
      intros (Hin & Hs & He & Hz); repeat split; eauto.
  - intros pincodes' zs' Hzs' Hsame.
    rewrite (isin_set_semantics zs zs' t Hsame).
    by apply filter_by_pincode_produces.
Qed.

(** C10. [filter_by_age_group] returns, for every [age_groups], a
    reference to a table with the rows and columns of its input - a copy
    of it - and leaves the input as it was; the group names it selects
    are bound to a local name and dropped. *)
Theorem filter_by_age_group_returns_input (h : store) (df : loc)
    (t : list Row) (age_groups : option (list string)) :
  h !! df = Some t →
  ∃ l h', filter_by_age_group df age_groups h = (Ok l, h')
    ∧ h' !! l = Some t ∧ h' !! df = Some t ∧ h ⊆ h'.
Proof.
  intros Hdf.
  destruct (filter_by_age_group_produces df age_groups h t Hdf)
    as (l & h' & Hrun & Hl & Hsub).
  exists l, h'. repeat split; try done. by eapply lookup_weaken.
Qed.

Lemma filter_by_age_group_returns_input_witness :
  ∃ l h', filter_by_age_group 0%nat (Some ["age_0_5"; "senior"])
            ({[ 0%nat := example_df ]} : store) = (Ok l, h')
    ∧ h' !! l = Some example_df ∧ h' !! 0%nat = Some example_df.
Proof.
  destruct (filter_by_age_group_returns_input {[ 0%nat := example_df ]} 0%nat
              example_df (Some ["age_0_5"; "senior"]))
    as (l & h' & Hrun & Hl & Hdf & _); [apply lookup_singleton_eq|].
  by exists l, h'.
Defined.

(** ** Idempotence of the preprocessor *)

Section PreprocessFacts.
Context `{Library}.





End PreprocessFacts.



(** ** The reductions against the real statistics *)

Lemma fsum_Fin {A} (f : A → R) (l : list A) :
  fsum (map (λ x, Fin (f x)) l) = Fin (Rsum (map f l)).
Proof.
  induction l as [|a l IH]; [done|].
  change (fadd (Fin (f a)) (fsum (map (λ x, Fin (f x)) l))
          = Fin (f a + Rsum (map f l))).
  by rewrite IH.
Qed.

Lemma Rsum_nonneg (l : list R) : Forall (λ x, 0 <= x)%R l → (0 <= Rsum l)%R.
Proof. induction 1; simpl; lra. Qed.

Lemma Rsum_zero (l : list R) :
  Forall (λ x, 0 <= x)%R l → Rsum l = 0%R → Forall (λ x, x = 0%R) l.
Proof.
  induction 1 as [|x l Hx Hl IH]; simpl; [constructor|]. intros Hsum.
  pose proof (Rsum_nonneg l Hl). constructor; [lra|]. apply IH. lra.
Qed.

Lemma length_pos_IZR {A} (s : list A) :
  s ≠ [] → (0 < IZR (Z.of_nat (length s)))%R.
Proof. intros Hs. apply IZR_lt. destruct s; simpl; [done|lia]. Qed.

Lemma series_mean_Fin (s : list Z) :
  s ≠ [] → series_mean s = Fin (mean_R s).
Proof.
  intros Hs. unfold series_mean. apply fdiv_int. destruct s; simpl; [done|lia].
Qed.

Lemma series_mean_nil : series_mean [] = NaN.
Proof.
  change (series_mean []) with (fdiv (float_of_int 0) (float_of_int 0)).
  rewrite fdiv_int_zero. by case_decide.
Qed.

Lemma series_var_Fin (s : list Z) :
  (2 ≤ length s)%nat → series_var s = Fin (var_R s).
Proof.
  intros Hlen. unfold series_var.
  replace (Z.of_nat (length s) <=? 1) with false by lia.
  rewrite series_mean_Fin by (destruct s; simpl in *; [lia|done]).
  rewrite (fsum_Fin (λ x, (mean_R s - IZR x) * (mean_R s - IZR x))%R).
  unfold fdiv, float_of_int, var_R, sum_sq_dev.
  destruct (decide (IZR (Z.of_nat (length s) - 1) = 0)%R) as [Hz|]; [|done].
  apply eq_IZR_R0 in Hz. lia.
Qed.

Lemma sum_sq_dev_nonneg (s : list Z) : (0 <= sum_sq_dev s)%R.
Proof.
  unfold sum_sq_dev. apply Rsum_nonneg, Forall_forall.
  intros x (z & -> & _)%list_elem_of_fmap. apply Rle_0_sqr.
Qed.

Lemma var_R_nonneg (s : list Z) : (2 ≤ length s)%nat → (0 <= var_R s)%R.
Proof.
  intros Hlen. unfold var_R.
  assert (0 < IZR (Z.of_nat (length s) - 1))%R as Hpos by (apply IZR_lt; lia).
  pose proof (sum_sq_dev_nonneg s).
  pose proof (Rinv_0_lt_compat _ Hpos). unfold Rdiv. nra.
Qed.

Lemma series_std_Fin (s : list Z) :
  (2 ≤ length s)%nat → series_std s = Fin (std_R s).
Proof.
  intros Hlen. unfold series_std. rewrite series_var_Fin by done. simpl.
  pose proof (var_R_nonneg s Hlen).
  destruct (decide (var_R s < 0)%R); [lra|done].
Qed.

Lemma series_std_short (s : list Z) :
  (length s ≤ 1)%nat → series_std s = NaN.
Proof.
  intros Hlen. unfold series_std, series_var.
  by replace (Z.of_nat (length s) <=? 1) with true by lia.
Qed.

(** A standard deviation of zero means that every value is the mean. *)
Lemma std_R_zero (s : list Z) :
  (2 ≤ length s)%nat → std_R s = 0%R → ∀ x, x ∈ s → IZR x = mean_R s.
Proof.
  intros Hlen Hstd x Hx.
  apply sqrt_eq_0 in Hstd; [|by apply var_R_nonneg].
  assert (0 < IZR (Z.of_nat (length s) - 1))%R as Hpos by (apply IZR_lt; lia).
  assert (sum_sq_dev s = 0)%R as Hsum.
  { unfold var_R in Hstd. pose proof (sum_sq_dev_nonneg s).
    pose proof (Rinv_0_lt_compat _ Hpos). unfold Rdiv in Hstd. nra. }
  unfold sum_sq_dev in Hsum. apply Rsum_zero in Hsum.
  - rewrite Forall_forall in Hsum.
    assert ((mean_R s - IZR x) * (mean_R s - IZR x) = 0)%R as Hsq.
    { apply Hsum. apply list_elem_of_fmap. by exists x. }
    nra.
  - apply Forall_forall. intros y (z & -> & _)%list_elem_of_fmap.
    apply Rle_0_sqr.
Qed.

Lemma series_sum_const (c : Z) (s : list Z) :
  (∀ x, x ∈ s → x = c) → series_sum s = Z.of_nat (length s) * c.
Proof.
  induction s as [|x s IH]; intros Hall; simpl; [lia|].
  rewrite IH by (intros y Hy; apply Hall; by right).
  rewrite (Hall x) by by left. lia.
Qed.

Lemma mean_R_const (c : Z) (s : list Z) :
  s ≠ [] → (∀ x, x ∈ s → x = c) → mean_R s = IZR c.
Proof.
  intros Hs Hall. unfold mean_R. rewrite (series_sum_const c s Hall).
  rewrite mult_IZR. pose proof (length_pos_IZR s Hs). field. lra.
Qed.

(** When all values are equal the standard deviation is zero. *)
Lemma std_R_const (c : Z) (s : list Z) :
  s ≠ [] → (∀ x, x ∈ s → x = c) → std_R s = 0%R.
Proof.
  intros Hs Hall. unfold std_R, var_R.
  assert (sum_sq_dev s = 0)%R as ->.
  { unfold sum_sq_dev. rewrite (mean_R_const c s Hs Hall).
    clear Hs. induction s as [|x s IH]; simpl; [done|].
    rewrite IH by (intros y Hy; apply Hall; by right).
    rewrite (Hall x) by by left. ring. }
  unfold Rdiv. rewrite Rmult_0_l. apply sqrt_0.
Qed.

(** ** The z-score detector *)

Lemma fgt_Fin (a b : R) : fgt (Fin a) (Fin b) = true ↔ (b < a)%R.
Proof. simpl. apply bool_decide_eq_true. Qed.

Lemma fgt_Fin_false (a b : R) : fgt (Fin a) (Fin b) = false ↔ ¬ (b < a)%R.
Proof. simpl. apply bool_decide_eq_false. Qed.

Lemma fgt_NaN_r (a : float64) : fgt a NaN = false.
Proof. by destruct a. Qed.

Lemma classify_high (threshold z : float64) :
  classify threshold z = "high" ↔ fgt z threshold = true.
Proof.
  unfold classify. destruct (fgt z threshold); [done|].
  by destruct (flt z (fopp threshold)).
Qed.

Lemma classify_low (threshold z : float64) :
  classify threshold z = "low"
  ↔ fgt z threshold = false ∧ flt z (fopp threshold) = true.
Proof.
  unfold classify. destruct (fgt z threshold).
  - split; [done|]. by intros [? _].
  - destruct (flt z (fopp threshold)); split; try done. by intros [_ ?].
Qed.

Lemma classify_normal (threshold z : float64) :
  classify threshold z = "normal"
  ↔ fgt z threshold = false ∧ flt z (fopp threshold) = false.
Proof.
  unfold classify. destruct (fgt z threshold).
  - split; [done|]. by intros [? _].
  - destruct (flt z (fopp threshold)); split; try done. by intros [_ ?].
Qed.

Lemma classify_NaN (threshold : float64) : classify threshold NaN = "normal".
Proof. apply classify_normal. split; [done|]. by destruct threshold. Qed.

(** The z-score of a value against a mean and a deviation of zero, or
    against an undefined deviation. *)
Lemma zscore_degenerate (v : Z) (mean std : float64) :
  std = NaN ∨ (mean = Fin (IZR v) ∧ std = Fin 0) →
  fdiv (fsub (float_of_int v) mean) std = NaN.
Proof.
  intros [->|[-> ->]].
  - by destruct (fsub _ _).
  - unfold float_of_int. simpl. real_cases. done.
Qed.

Lemma zscore_rows (df : list Row) (column : Row → Z) (threshold : float64)
    (r : ZscoreRow) :
  r ∈ calculate_zscore_anomalies df column threshold →
  (z_date r, z_value r) ∈ daily_sum column df
  ∧ z_score r = fdiv (fsub (float_of_int (z_value r))
                        (series_mean (daily_sum column df).*2))
                     (series_std (daily_sum column df).*2)
  ∧ is_anomaly r = fgt (fabs (z_score r)) threshold
  ∧ anomaly_type r = classify threshold (z_score r).
Proof.
  unfold calculate_zscore_anomalies.
  intros ([d v] & -> & Hin)%list_elem_of_fmap. simpl. by repeat split.
Qed.

(** C2. [calculate_zscore_anomalies] gives one row per day of the
    per-day series, with the z-score [(value - mean) / std] of the
    series' mean and sample standard deviation; a row is flagged exactly
    when [|z| > threshold], and typed "high" when [z > threshold], else
    "low" when [z < -threshold], else "normal".  With the real mean [μ]
    and deviation [σ ≠ 0] of at least two days, [z] is the real number
    [(value - μ) / σ] and the comparisons are those of the reals.  When
    all per-day values are equal, or the series has at most one point,
    every z-score is NaN, no row is flagged and every row is "normal". *)
Theorem zscore_flags_exactly (df : list Row) (column : Row → Z)
    (threshold : float64) :
  let vals := (daily_sum column df).*2 in
  let rows := calculate_zscore_anomalies df column threshold in
  map (λ r, (z_date r, z_value r)) rows = daily_sum column df
  ∧ (∀ r, r ∈ rows →
       z_score r = fdiv (fsub (float_of_int (z_value r)) (series_mean vals))
                        (series_std vals)
       ∧ is_anomaly r = fgt (fabs (z_score r)) threshold
       ∧ anomaly_type r = classify threshold (z_score r))
  ∧ List.filter is_anomaly rows
    = List.filter (λ r, fgt (fabs (z_score r)) threshold) rows
  ∧ ((2 ≤ length vals)%nat → std_R vals ≠ 0%R →
     ∀ r, r ∈ rows →
       let z := ((IZR (z_value r) - mean_R vals) / std_R vals)%R in
       z_score r = Fin z
       ∧ ∀ th, threshold = Fin th →
           (is_anomaly r = true ↔ (th < Rabs z)%R)
           ∧ (anomaly_type r = "high" ↔ (th < z)%R)
           ∧ (anomaly_type r = "low" ↔ ¬ (th < z)%R ∧ (z < - th)%R)
           ∧ (anomaly_type r = "normal" ↔ ¬ (th < z)%R ∧ ¬ (z < - th)%R))
  ∧ ((∀ v w, v ∈ vals → w ∈ vals → v = w) ∨ (length vals ≤ 1)%nat →
     (∀ r, r ∈ rows →
        z_score r = NaN ∧ is_anomaly r = false ∧ anomaly_type r = "normal")
     ∧ List.filter is_anomaly rows = []).
Proof.
  intros vals rows.
  split.
  { unfold rows, calculate_zscore_anomalies.
    rewrite <- list_fmap_compose. rewrite <- (list_fmap_id (daily_sum _ _)) at 2.
    apply list_fmap_ext. by intros _ [d v] _. }
  split.
  { intros r Hr. by destruct (zscore_rows _ _ _ _ Hr) as (_ & ? & ? & ?). }
  split.
  { apply filter_ext_in_iff. intros r Hr%list_elem_of_In.
    destruct (zscore_rows _ _ _ _ Hr) as (_ & _ & -> & _). done. }
  split.
  - intros Hlen Hstd r Hr z.
    destruct (zscore_rows _ _ _ _ Hr) as (_ & Hz & Hflag & Htype).
    assert (z_score r = Fin z) as Hzr.
    { rewrite Hz. fold vals.
      rewrite series_mean_Fin by (intros Hnil; rewrite Hnil in Hlen; simpl in Hlen; lia).
      rewrite series_std_Fin by done. unfold float_of_int. simpl.
      destruct (decide (std_R vals = 0)%R); [done|]. done. }
    split; [done|]. intros th ->. rewrite Hflag, Htype, Hzr.
    rewrite classify_high, classify_low, classify_normal.
    unfold flt. simpl fopp. simpl fabs.
    rewrite !fgt_Fin, !fgt_Fin_false. done.
  - intros Hdeg.
    assert (∀ r, r ∈ rows → z_score r = NaN) as Hnan.
    { intros r Hr. destruct (zscore_rows _ _ _ _ Hr) as (Hin & Hz & _).
      rewrite Hz. fold vals. apply zscore_degenerate.
      destruct (decide (length vals ≤ 1)%nat) as [Hshort|Hlong].
      { left. by apply series_std_short. }
      destruct Hdeg as [Hconst|]; [|done]. right.
      assert (z_value r ∈ vals) as Hv.
      { apply list_elem_of_fmap. by exists (z_date r, z_value r). }
      assert (vals ≠ []) as Hne by (intros Hnil; rewrite Hnil in Hv; inversion Hv).
      assert (∀ x, x ∈ vals → x = z_value r) as Hall by (intros x Hx; by apply Hconst).
      rewrite series_mean_Fin, series_std_Fin by (done || lia).
      by rewrite (mean_R_const _ _ Hne Hall), (std_R_const _ _ Hne Hall). }
    assert (∀ r, r ∈ rows →
              z_score r = NaN ∧ is_anomaly r = false ∧ anomaly_type r = "normal")
      as Hrows.
    { intros r Hr. destruct (zscore_rows _ _ _ _ Hr) as (_ & _ & Hflag & Htype).
      rewrite Hflag, Htype, (Hnan r Hr). split; [done|].
      split; [done|apply classify_NaN]. }
    split; [done|].
    apply filter_none. intros r Hr. by destruct (Hrows r Hr) as (_ & ? & _).
Qed.

Lemma zscore_flags_exactly_witness :
  List.filter is_anomaly
    (calculate_zscore_anomalies zero_df total ANOMALY_THRESHOLD) = [].
Proof.
  apply (zscore_flags_exactly zero_df total ANOMALY_THRESHOLD).
  right. vm_compute. lia.
Defined.

(** ** The rolling-window detector *)

Lemma fdiv_NaN_r (a : float64) : fdiv a NaN = NaN.
Proof. by destruct a. Qed.

Lemma rolling_row_undefined (threshold : float64) (dv : Timestamp * Z)
    (rmean : float64) :
  let r := rolling_row threshold dv rmean NaN in
  threshold_value r = NaN
  ∧ is_rolling_anomaly r = false
  ∧ anomaly_severity r = Fin 0.
Proof.
  simpl. split; [done|]. split; [apply fgt_NaN_r|].
  by rewrite fdiv_NaN_r.
Qed.

Lemma rolling_row_severity (threshold : float64) (dv : Timestamp * Z)
    (rmean rstd : float64) :
  window_stats dv.2 rmean rstd → threshold ≠ Fin 0 →
  let r := rolling_row threshold dv rmean rstd in
  (threshold_value r = NaN ∨ threshold_value r = Fin 0 →
     anomaly_severity r = Fin 0)
  ∧ (threshold_value r ≠ NaN → threshold_value r ≠ Fin 0 →
     anomaly_severity r = fdiv (deviation r) (threshold_value r))
  ∧ (∃ x, anomaly_severity r = Fin x)
  ∧ (threshold_value r = NaN → is_rolling_anomaly r = false).
Proof.
  intros [->|(μ & σ & -> & -> & Hzero)] Hthr r.
  { destruct (rolling_row_undefined threshold dv rmean) as (Htv & Hflag & Hsev).
    fold r in Htv, Hflag, Hsev. rewrite Htv, Hsev.
    repeat split; try done. by exists 0%R. }
  unfold r, rolling_row, float_of_int. simpl.
  destruct threshold as [t| | |]; simpl.
  - assert (t ≠ 0%R) as Ht by (intros ->; done).
    destruct (decide (σ * t = 0)%R) as [Hst|Hst].
    + assert (σ = 0%R) as Hσ by nra.
      rewrite <- (Hzero Hσ).
      replace (IZR dv.2 + - IZR dv.2)%R with 0%R by ring.
      rewrite Rabs_R0. destruct (decide (0 = 0)%R); [|lra]. simpl.
      repeat split; try done.
      * intros _ Hne. exfalso. apply Hne. by rewrite Hst.
      * by exists 0%R.
    + simpl. repeat split; try done.
      * intros [|[=]]; [done|lra].
      * by eexists.
  - destruct (decide (σ = 0)%R); simpl.
    + repeat split; try done. by exists 0%R.
    + unfold inf_of_sign. destruct (decide (0 < σ)%R); simpl;
        repeat split; try done; try (by intros [|]); by exists 0%R.
  - destruct (decide (σ = 0)%R); simpl.
    + repeat split; try done. by exists 0%R.
    + unfold inf_of_sign. destruct (decide (0 < σ)%R); simpl;
        repeat split; try done; try (by intros [|]); by exists 0%R.
  - repeat split; try done. by exists 0%R.
Qed.

Lemma window_at_bounds (window : Z) (s : list Z) (i : nat) :
  window_at window s i
  = take (Z.to_nat (window_end window (Z.of_nat (length s)) i
                    - window_start window (Z.of_nat (length s)) i))
         (drop (Z.to_nat (window_start window (Z.of_nat (length s)) i)) s).
Proof. done. Qed.

Lemma window_at_length (window : Z) (s : list Z) (i : nat) :
  0 ≤ window →
  Z.of_nat (length (window_at window s i))
  = window_end window (Z.of_nat (length s)) i
    - window_start window (Z.of_nat (length s)) i.
Proof.
  intros Hw. rewrite window_at_bounds, length_take, length_drop.
  unfold window_end, window_start. lia.
Qed.

Lemma window_at_length_le (window : Z) (s : list Z) (i : nat) :
  0 ≤ window → Z.of_nat (length (window_at window s i)) ≤ window.
Proof.
  intros Hw. rewrite window_at_length by done.
  unfold window_end, window_start. lia.
Qed.

(** The window is cut short exactly at the days too close to either end
    of the series. *)
Lemma window_at_short (window : Z) (s : list Z) (i : nat) :
  0 ≤ window → (i < length s)%nat →
  Z.of_nat (length (window_at window s i)) < window
  ↔ Z.of_nat i + 1 + (window - 1) `div` 2 - window < 0
    ∨ Z.of_nat (length s) < Z.of_nat i + 1 + (window - 1) `div` 2.
Proof.
  intros Hw Hi. rewrite window_at_length by done.
  unfold window_end, window_start.
  pose proof (Z.div_mod (window - 1) 2 ltac:(lia)) as Hdiv.
  pose proof (Z.mod_pos_bound (window - 1) 2 ltac:(lia)) as Hmod.
  lia.
Qed.

(** The day itself is among the observations of its window. *)
Lemma window_at_center (window : Z) (s : list Z) (i : nat) (v : Z) :
  1 ≤ window → s !! i = Some v → v ∈ window_at window s i.
Proof.
  intros Hw Hv. pose proof (lookup_lt_Some _ _ _ Hv) as Hi.
  assert (0 ≤ (window - 1) `div` 2 ≤ window - 1) as Hoff.
  { split; [apply Z.div_pos; lia|]. apply Z.div_le_upper_bound; lia. }
  rewrite window_at_bounds.
  set (a := window_start window (Z.of_nat (length s)) i).
  set (b := window_end window (Z.of_nat (length s)) i).
  assert (0 ≤ a ≤ Z.of_nat i ∧ Z.of_nat i < b) as [Ha Hb]
    by (unfold a, b, window_start, window_end; lia).
  apply (list_elem_of_lookup_2 _ (i - Z.to_nat a)%nat).
  rewrite lookup_take_lt by lia. rewrite lookup_drop.
  by replace (Z.to_nat a + (i - Z.to_nat a))%nat with i by lia.
Qed.

Lemma rolling_lookup (f : list Z → float64) (window : Z) (s : list Z)
    (i : nat) (x : float64) :
  rolling f window s !! i = Some x →
  (i < length s)%nat
  ∧ x = if Z.of_nat (length (window_at window s i)) <? window
        then NaN else f (window_at window s i).
Proof.
  unfold rolling. rewrite list_lookup_imap.
  destruct (s !! i) as [v|] eqn:Hv; [|done]. simpl. intros [= <-].
  split; [by eapply lookup_lt_Some|done].
Qed.

Lemma rolling_length (f : list Z → float64) (window : Z) (s : list Z) :
  length (rolling f window s) = length s.
Proof. apply length_imap. Qed.

Lemma rolling_window_stats (window : Z) (s : list Z) (i : nat) (v : Z)
    (rmean rstd : float64) :
  0 ≤ window → s !! i = Some v →
  rolling series_mean window s !! i = Some rmean →
  rolling series_std window s !! i = Some rstd →
  window_stats v rmean rstd.
Proof.
  intros Hw Hv [_ ->]%rolling_lookup [_ ->]%rolling_lookup.
  destruct (Z.of_nat (length (window_at window s i)) <? window) eqn:Hfull;
    [by left|].
  destruct (decide (length (window_at window s i) ≤ 1)%nat) as [Hshort|Hlong].
  { left. by apply series_std_short. }
  right. exists (mean_R (window_at window s i)), (std_R (window_at window s i)).
  split; [apply series_mean_Fin; intros Hnil; rewrite Hnil in Hlong;
          simpl in Hlong; lia|].
  split; [apply series_std_Fin; lia|].
  intros Hzero. apply std_R_zero; [lia|done|].
  apply window_at_center; [|done].
  pose proof (window_at_length_le window s i Hw). lia.
Qed.

(** The rows of the result, position by position. *)
Lemma rolling_rows_lookup (df : list Row) (column : Row → Z) (window : Z)
    (threshold : float64) (rows : list RollingRow) (i : nat) :
  let daily := sort_values fst true (daily_sum column df) in
  calculate_rolling_anomalies df column window threshold = Ok rows →
  rows !! i
  = (λ dv, rolling_row threshold dv
             (rolling_at series_mean window daily.*2 i)
             (rolling_at series_std window daily.*2 i)) <$> daily !! i.
Proof.
  intros daily. unfold calculate_rolling_anomalies. fold daily.
  destruct (window <? 0); [done|]. intros [= <-].
  rewrite lookup_zip_with.
  destruct (daily !! i) as [dv|] eqn:Hdv; [|done]. simpl.
  assert (zip (rolling series_mean window daily.*2)
              (rolling series_std window daily.*2) !! i
          = Some (rolling_at series_mean window daily.*2 i,
                  rolling_at series_std window daily.*2 i)) as ->.
  { apply lookup_zip_with_Some. eexists _, _. split; [done|].
    unfold rolling. by rewrite !list_lookup_imap, list_lookup_fmap, Hdv. }
  done.
Qed.

Lemma rolling_rows_days (df : list Row) (column : Row → Z) (window : Z)
    (threshold : float64) :
  0 ≤ window →
  ∃ rows, calculate_rolling_anomalies df column window threshold = Ok rows
    ∧ map (λ r, (r_date r, r_value r)) rows
      = sort_values fst true (daily_sum column df).
Proof.
  intros Hw. unfold calculate_rolling_anomalies.
  replace (window <? 0) with false by lia.
  eexists. split; [done|].
  apply fmap_zip_with_l; [by intros [d v] ms|].
  rewrite length_zip_with, !rolling_length, length_fmap. lia.
Qed.

(** C3 (as amended). For a window that is not negative the detector
    answers with one row per day.  In every row the deviation is
    [|value - rolling mean|], the threshold value is [rolling std ×
    threshold] and the flag is [deviation > threshold value].  Where the
    threshold value is undefined (NaN) the day is not flagged and its
    severity is 0; that is so at every edge day, whose window is cut
    short by the start or the end of the series and whose rolling
    statistics are NaN.  For a threshold multiplier other than zero:
    where the threshold value is zero the severity is 0, everywhere else
    it is [deviation ÷ threshold value], and it is always a finite
    number. *)
Theorem rolling_severity_defined (df : list Row) (column : Row → Z)
    (window : Z) (threshold : float64) :
  let daily := sort_values fst true (daily_sum column df) in
  (0 ≤ window →
     ∃ rows, calculate_rolling_anomalies df column window threshold = Ok rows
       ∧ map (λ r, (r_date r, r_value r)) rows = daily)
  ∧ ∀ rows, calculate_rolling_anomalies df column window threshold = Ok rows →
    ∀ i r, rows !! i = Some r →
      deviation r = fabs (fsub (float_of_int (r_value r)) (rolling_mean r))
      ∧ threshold_value r = fmul (rolling_std r) threshold
      ∧ is_rolling_anomaly r = fgt (deviation r) (threshold_value r)
      ∧ (threshold_value r = NaN →
           is_rolling_anomaly r = false ∧ anomaly_severity r = Fin 0)
      ∧ (Z.of_nat i + 1 + (window - 1) `div` 2 - window < 0
         ∨ Z.of_nat (length daily) < Z.of_nat i + 1 + (window - 1) `div` 2 →
           rolling_mean r = NaN ∧ rolling_std r = NaN
           ∧ threshold_value r = NaN)
      ∧ (threshold ≠ Fin 0 →
           (threshold_value r = Fin 0 → anomaly_severity r = Fin 0)
           ∧ (threshold_value r ≠ NaN → threshold_value r ≠ Fin 0 →
                anomaly_severity r = fdiv (deviation r) (threshold_value r))
           ∧ ∃ x, anomaly_severity r = Fin x).
Proof.
  intros daily. split; [apply rolling_rows_days|].
  intros rows Hrows i r Hr.
  assert (0 ≤ window) as Hw.
  { unfold calculate_rolling_anomalies in Hrows.
    destruct (window <? 0) eqn:Hneg; [done|lia]. }
  rewrite (rolling_rows_lookup _ _ _ _ _ i Hrows) in Hr. fold daily in Hr.
  destruct (daily !! i) as [dv|] eqn:Hdv; [|done].
  simpl in Hr. injection Hr as <-.
  set (rmean := rolling_at series_mean window daily.*2 i).
  set (rstd := rolling_at series_std window daily.*2 i).
  assert (daily.*2 !! i = Some dv.2) as Hv by (by rewrite list_lookup_fmap, Hdv).
  assert (window_stats dv.2 rmean rstd) as Hstats.
  { apply (rolling_window_stats window daily.*2 i); try done;
      unfold rolling; rewrite list_lookup_imap, Hv; done. }
  split; [done|]. split; [done|]. split; [done|].
  split.
  { simpl. intros Htv. split; [by rewrite Htv, fgt_NaN_r|].
    by rewrite Htv, fdiv_NaN_r. }
  split.
  { intros Hedge.
    assert (rmean = NaN ∧ rstd = NaN) as [Hm Hs].
    { apply lookup_lt_Some in Hv.
      rewrite <- (length_fmap snd daily) in Hedge.
      apply window_at_short in Hedge; [|done..].
      unfold rmean, rstd, rolling_at.
      by replace (_ <? _) with true by lia. }
    simpl. by rewrite Hm, Hs. }
  intros Hthr.
  destruct (rolling_row_severity threshold dv rmean rstd Hstats Hthr)
    as (Hzero & Hdiv & Hfin & _).
  split; [intros Htv; apply Hzero; by right|]. by split.
Qed.

Lemma rolling_severity_defined_witness :
  ∃ rows, calculate_rolling_anomalies example_df total ROLLING_WINDOW
            ANOMALY_THRESHOLD = Ok rows
    ∧ length rows = 3%nat.
Proof.
  destruct (proj1 (rolling_severity_defined example_df total ROLLING_WINDOW
                     ANOMALY_THRESHOLD)) as (rows & Hrows & Hdays); [done|].
  exists rows. split; [done|].
  apply (f_equal length) in Hdays. by rewrite length_fmap in Hdays.
Defined.

(** C3 as stated fails for a threshold multiplier of zero: on the second
    of three days with totals 0, 0 and 3 and a window of three days, the
    threshold value is zero and the severity is infinite. *)
Lemma rolling_severity_infinite :
  ∃ rows r,
    calculate_rolling_anomalies spike_df total 3 (Fin 0) = Ok rows
    ∧ rows !! 1%nat = Some r
    ∧ r_value r = 0
    ∧ threshold_value r = Fin 0
    ∧ anomaly_severity r = PInf.
Proof.
  destruct (rolling_rows_days spike_df total 3 (Fin 0)) as (rows & Hrows & _);
    [done|].
  pose proof (rolling_rows_lookup _ _ _ _ _ 1%nat Hrows) as Hrow.
  change (sort_values fst true (daily_sum total spike_df))
    with [(1704067200000000000, 0); (1704153600000000000, 0);
          (1704240000000000000, 3)] in Hrow.
  change (rolling_at series_mean 3 _ 1) with (series_mean [0; 0; 3]) in Hrow.
  change (rolling_at series_std 3 _ 1) with (series_std [0; 0; 3]) in Hrow.
  rewrite series_std_Fin in Hrow by (simpl; lia).
  rewrite series_mean_Fin in Hrow by done.
  assert (mean_R [0; 0; 3] = 1%R) as Hmean.
  { unfold mean_R.
    change (series_sum [0; 0; 3]) with 3.
    change (Z.of_nat (length [0; 0; 3])) with 3. field. }
  rewrite Hmean in Hrow.
  eexists rows, _. split; [done|]. split; [exact Hrow|].
  split; [done|]. simpl. split; [f_equal; ring|].
  assert (Rabs (0 + - (1)) = 1)%R as Hdev by (rewrite Rabs_left; lra).
  rewrite Hdev.
  destruct (decide (std_R [0; 0; 3]%Z * 0 = 0)%R) as [_|Hne];
    [|exfalso; apply Hne; ring].
  destruct (decide (1 = 0)%R); [lra|].
  unfold inf_of_sign. destruct (decide (0 < 1)%R); [done|lra].
Qed.

(** ** Witnesses on the example table *)

Lemma filters_pure_and_commute_witness :
  let h : store := {[ 0%nat := example_df ]} in
  let both :=
    List.filter (λ r, between (Some 1704153600000000000) None r
                      && isin [731101; 731101] r) example_df in
  (∃ l h', (d ← filter_by_date_range 0%nat (ArgStr "2024-01-02") ArgNone;
            filter_by_pincode d (PinList [PyStr "731101"; PyInt 731101])) h
           = (Ok l, h')
     ∧ h' !! l = Some both ∧ h' !! 0%nat = Some example_df)
  ∧ (∃ l h', (d ← filter_by_pincode 0%nat
                    (PinList [PyStr "731101"; PyInt 731101]);
              filter_by_date_range d (ArgStr "2024-01-02") ArgNone) h
             = (Ok l, h')
     ∧ h' !! l = Some both ∧ h' !! 0%nat = Some example_df)
  ∧ length both = 2%nat.
Proof.
  intros h both.
  destruct (filters_pure_and_commute h 0%nat example_df
              (ArgStr "2024-01-02") ArgNone
              (Some 1704153600000000000) None
              (PinList [PyStr "731101"; PyInt 731101]) [731101; 731101])
    as (_ & _ & (l1 & h1 & Hrun1 & Hl1 & Hdf1 & _)
          & (l2 & h2 & Hrun2 & Hl2 & Hdf2 & _) & _).
  - apply lookup_singleton_eq.
  - apply denotes_text; [done|]. vm_compute. reflexivity.
  - apply denotes_none.
  - vm_compute. reflexivity.
  - split; [by exists l1, h1|]. split; [by exists l2, h2|].
    vm_compute. reflexivity.
Defined.

